(** * Cpp-notes: the exception-handling demo and the preprocessor demo

    A shallow embedding of the two programs of the repository:

    - [ExceptionHandling]: [src/Exception Handling/main.cpp].  Console output
      is threaded as explicit state, C++ exceptions are an outcome of a small
      state-and-error monad, the RAII guard is a scope combinator that runs the
      destructor on normal exit and during unwinding, and [try]/[catch] selects
      the first handler whose clause matches the dynamic class of the error.
    - [NumericBase]: [processData] once more, with the numeric base of
      [cout] as state next to the console.
    - [PreprocessorDirectives]: [src/Preprocessor Directives/main.cpp].  The
      macro table of the translation phase is threaded in textual order next to
      the console, so that every use of a macro sees the definition that is
      current at that point of the file. *)

From Stdlib Require Import ZArith Ascii String List Lia.
From Stdlib Require Import DecimalString DecimalPos DecimalZ.
From stdpp Require Import base option list strings gmap.

Local Open Scope string_scope.
Local Open Scope Z_scope.
Local Open Scope list_scope.

(** Decimal rendering of an [int], as [operator<<] prints it. *)
Definition show_int (n : Z) : string := NilZero.string_of_int (Z.to_int n).

(** [contains needle hay]: [needle] occurs in [hay] as a contiguous run. *)
Fixpoint contains (needle hay : string) : bool :=
  String.prefix needle hay ||
  match hay with
  | EmptyString => false
  | String _ rest => contains needle rest
  end.

(* ================================================================== *)
(** * Program A: exception handling *)

Module ExceptionHandling.

(** ** Console *)

Inductive stream := cout | cerr.

(** One [<< ... << endl] statement: the stream and the text of the line. *)
Definition event : Type := stream * string.
Definition console : Type := list event.

Definition stream_eqb (a b : stream) : bool :=
  match a, b with
  | cout, cout | cerr, cerr => true
  | _, _ => false
  end.

Definition on_stream (s : stream) (w : console) : list string :=
  map snd (List.filter (fun ev => stream_eqb (fst ev) s) w).

(** ** Exceptions *)

(** The exception objects the program throws. *)
Inductive exn :=
| invalid_argument (what_arg : string)
| MyCustomException (msg_ : string)
| overflow_error (what_arg : string)
| bad_alloc.

(** The classes of [<stdexcept>] that the program throws or names in a
    [catch] clause, with the base classes between them. *)
Inductive exn_class :=
| class_exception
| class_logic_error
| class_invalid_argument
| class_runtime_error
| class_overflow_error
| class_bad_alloc
| class_MyCustomException.

Definition exn_class_eqb (a b : exn_class) : bool :=
  match a, b with
  | class_exception, class_exception
  | class_logic_error, class_logic_error
  | class_invalid_argument, class_invalid_argument
  | class_runtime_error, class_runtime_error
  | class_overflow_error, class_overflow_error
  | class_bad_alloc, class_bad_alloc
  | class_MyCustomException, class_MyCustomException => true
  | _, _ => false
  end.

(** Direct public base of a class ([class MyCustomException : public exception]). *)
Definition base_class (c : exn_class) : option exn_class :=
  match c with
  | class_exception => None
  | class_logic_error => Some class_exception
  | class_invalid_argument => Some class_logic_error
  | class_runtime_error => Some class_exception
  | class_overflow_error => Some class_runtime_error
  | class_bad_alloc => Some class_exception
  | class_MyCustomException => Some class_exception
  end.

(** [c] and its bases, nearest first; the hierarchy is three levels deep. *)
Fixpoint bases_upto (depth : nat) (c : exn_class) : list exn_class :=
  c :: match depth, base_class c with
       | S d, Some b => bases_upto d b
       | _, _ => []
       end.

Definition bases (c : exn_class) : list exn_class := bases_upto 3 c.

Definition dynamic_class (e : exn) : exn_class :=
  match e with
  | invalid_argument _ => class_invalid_argument
  | MyCustomException _ => class_MyCustomException
  | overflow_error _ => class_overflow_error
  | bad_alloc => class_bad_alloc
  end.

(** ** The monad: console state, plus how the computation left *)

Inductive outcome (A : Type) :=
| Returned (a : A)
| Thrown (e : exn)
| Terminated.
Arguments Returned {A} a.
Arguments Thrown {A} e.
Arguments Terminated {A}.

Definition M (A : Type) : Type := console -> outcome A * console.

Definition ret {A} (a : A) : M A := fun w => (Returned a, w).

Definition bind {A B} (m : M A) (k : A -> M B) : M B := fun w =>
  match m w with
  | (Returned a, w1) => k a w1
  | (Thrown e, w1) => (Thrown e, w1)
  | (Terminated, w1) => (Terminated, w1)
  end.

#[global] Instance M_ret : MRet M := @ret.
#[global] Instance M_bind : MBind M := fun A B k m => bind m k.

Definition throw {A} (e : exn) : M A := fun w => (Thrown e, w).

(** [s << text << endl] *)
Definition emit (s : stream) (text : string) : M unit :=
  fun w => (Returned tt, w ++ [(s, text)]).

(** A block that owns one local object: the constructor runs first, the
    destructor runs when the block is left, by return or by an exception in
    flight.  A destructor that throws, like the process once terminated, ends
    in [Terminated]. *)
Definition scoped {A} (ctor dtor : M unit) (body : M A) : M A := fun w =>
  match ctor w with
  | (Returned _, w1) =>
      match body w1 with
      | (Terminated, w2) => (Terminated, w2)
      | (r, w2) =>
          match dtor w2 with
          | (Returned _, w3) => (r, w3)
          | (_, w3) => (Terminated, w3)
          end
      end
  | (Thrown e, w1) => (Thrown e, w1)
  | (Terminated, w1) => (Terminated, w1)
  end.

(** A [noexcept] function: an exception that would leave it calls
    [std::terminate]. *)
Definition noexcept {A} (body : M A) : M A := fun w =>
  match body w with
  | (Thrown _, w1) => (Terminated, w1)
  | r => r
  end.

(** ** [try] / [catch] *)

Inductive catch_clause :=
| catch_type (c : exn_class)   (* catch (const C& e) *)
| catch_all.                   (* catch (...) *)

Record handler := Handler {
  clause : catch_clause;
  action : exn -> M unit
}.

Definition catches (c : catch_clause) (e : exn) : bool :=
  match c with
  | catch_type cls => existsb (exn_class_eqb cls) (bases (dynamic_class e))
  | catch_all => true
  end.

(** Handlers are tried in the order they are written. *)
Definition select_handler (hs : list handler) (e : exn) : option handler :=
  List.find (fun h => catches (clause h) e) hs.

Record try_block := Try {
  try_body : M unit;
  try_handlers : list handler
}.

Definition exec_try (t : try_block) : M unit := fun w =>
  match try_body t w with
  | (Thrown e, w1) =>
      match select_handler (try_handlers t) e with
      | Some h => action h e w1
      | None => (Thrown e, w1)
      end
  | r => r
  end.

(** ** The program *)

(** [class ResourceGuard] *)
Definition ResourceGuard_ctor : M unit := emit cout "Resource acquired.".
Definition ResourceGuard_dtor : M unit :=
  emit cout "Resource released (simulating finally block).".

(** [void safeOperation() noexcept] *)
Definition safeOperation : M unit :=
  noexcept (emit cout "This operation is guaranteed not to throw an exception.").

(** [void processData(int value)].  No arithmetic is done on [value], so the
    32-bit range of [int] plays no part and [value] ranges over [Z]. *)
Definition processData (value : Z) : M unit :=
  scoped ResourceGuard_ctor ResourceGuard_dtor
    ((if value <? 0 then
        throw (invalid_argument "Negative value is not allowed.")
      else if value =? 0 then
        throw (MyCustomException "Zero is not permitted.")
      else if value >? 100 then
        throw (overflow_error "Value exceeds the allowable range.")
      else ret tt) ;;
     (if value =? 99 then throw bad_alloc else ret tt) ;;
     emit cout ("Value is valid: " +:+ show_int value)).

Section Driver.

(** The text [std::bad_alloc::what()] returns is chosen by the standard
    library implementation; it is left open. *)
Variable bad_alloc_what : string.

(** [e.what()] *)
Definition what (e : exn) : string :=
  match e with
  | invalid_argument what_arg => what_arg
  | MyCustomException msg_ => msg_
  | overflow_error what_arg => what_arg
  | bad_alloc => bad_alloc_what
  end.

(** The seven [try] blocks of [main], in source order. *)
Definition try_negative : try_block :=
  Try (processData (-1))
      [Handler (catch_type class_invalid_argument) (fun e =>
         emit cerr ("Caught a logic error (invalid_argument): " +:+ what e))].

Definition try_zero : try_block :=
  Try (processData 0)
      [Handler (catch_type class_MyCustomException) (fun e =>
         emit cerr ("Caught a custom exception: " +:+ what e))].

Definition try_overflow : try_block :=
  Try (processData 101)
      [Handler (catch_type class_overflow_error) (fun e =>
         emit cerr ("Caught a runtime error (overflow_error): " +:+ what e))].

Definition try_alloc : try_block :=
  Try (processData 99)
      [Handler (catch_type class_bad_alloc) (fun e =>
         emit cerr ("Caught a memory allocation error (bad_alloc): " +:+ what e))].

Definition try_valid : try_block :=
  Try (processData 10)
      [Handler (catch_type class_exception) (fun e =>
         emit cerr ("Caught a general exception: " +:+ what e))].

Definition try_compound : try_block :=
  Try (processData 50 ;; processData 999)
      [Handler catch_all (fun _ =>
         emit cerr "Caught an unexpected exception.")].

Definition try_safe : try_block :=
  Try safeOperation
      [Handler catch_all (fun _ =>
         emit cerr "This block will never be executed as safeOperation() is noexcept.")].

Definition main_blocks : list try_block :=
  [try_negative; try_zero; try_overflow; try_alloc; try_valid;
   try_compound; try_safe].

(** [int main()] *)
Definition main : M Z :=
  exec_try try_negative ;;
  exec_try try_zero ;;
  exec_try try_overflow ;;
  exec_try try_alloc ;;
  exec_try try_valid ;;
  exec_try try_compound ;;
  exec_try try_safe ;;
  ret 0.

End Driver.

(** How the process ends: the value [main] returns, or [None] when an
    exception leaves [main] or [std::terminate] was called. *)
Definition exit_status (r : outcome Z) : option Z :=
  match r with
  | Returned status => Some status
  | Thrown _ | Terminated => None
  end.

(** Start on an empty console. *)
Definition run {A} (m : M A) : outcome A * console := m [].

(** ** Observations on a run *)

Definition event_eqb (a b : event) : bool :=
  stream_eqb (fst a) (fst b) && String.eqb (snd a) (snd b).

Definition occurrences (ev : event) (w : console) : nat :=
  length (List.filter (event_eqb ev) w).

(** The two lines of the guard. *)
Definition acquired : event := (cout, "Resource acquired.").
Definition released : event :=
  (cout, "Resource released (simulating finally block).").

(** What one call of [processData] writes, started on an empty console. *)
Definition written (value : Z) : console := snd (run (processData value)).

(** The exception that leaves the body of a [try] block, if any. *)
Definition raised (t : try_block) : option exn :=
  match fst (run (try_body t)) with
  | Thrown e => Some e
  | _ => None
  end.

(** The clause of the handler that [t] enters when started on [w]. *)
Definition entered (t : try_block) (w : console) : option catch_clause :=
  match try_body t w with
  | (Thrown e, _) => clause <$> select_handler (try_handlers t) e
  | _ => None
  end.

(** The lines the whole [try] statement writes to [cerr]. *)
Definition diagnostics (t : try_block) : list string :=
  on_stream cerr (snd (run (exec_try t))).

(** The text an exception object was constructed with; [bad_alloc] has none. *)
Definition payload (e : exn) : option string :=
  match e with
  | invalid_argument what_arg => Some what_arg
  | MyCustomException msg_ => Some msg_
  | overflow_error what_arg => Some what_arg
  | bad_alloc => None
  end.

(** A clause names the kind of [e] when it is written for the class of [e]. *)
Definition names_kind (c : catch_clause) (e : exn) : bool :=
  match c with
  | catch_type cls => exn_class_eqb cls (dynamic_class e)
  | catch_all => false
  end.

Definition carries_payload (line : string) (e : exn) : bool :=
  match payload e with
  | Some text => contains text line
  | None => true
  end.

(** A failing [try] block reports its error by one line on [cerr] that comes
    from a handler naming the kind and that carries the payload. *)
Definition reports_kind_and_payload (t : try_block) : bool :=
  match raised t with
  | Some e =>
      match select_handler (try_handlers t) e, diagnostics t with
      | Some h, [line] => names_kind (clause h) e && carries_payload line e
      | _, _ => false
      end
  | None => true
  end.

(** ** The classification as the specification words it *)

Inductive classification :=
| fails_InvalidArgument (message : string)
| fails_CustomDomainError (message : string)
| fails_Overflow (message : string)
| fails_AllocationFailure
| succeeds (line : string).

(** The four failing rules, in priority order. *)
Definition classification_rules : list ((Z -> bool) * classification) :=
  [ (fun value => value <? 0,
     fails_InvalidArgument "Negative value is not allowed.");
    (fun value => value =? 0,
     fails_CustomDomainError "Zero is not permitted.");
    (fun value => value >? 100,
     fails_Overflow "Value exceeds the allowable range.");
    (fun value => value =? 99,
     fails_AllocationFailure) ].

(** First match wins; a value no rule matches is valid. *)
Definition five_way_classification (value : Z) : classification :=
  match List.find (fun rule => fst rule value) classification_rules with
  | Some rule => snd rule
  | None => succeeds ("Value is valid: " +:+ show_int value)
  end.

(** How a classification shows in a run: the way the call leaves, and the
    line it writes between the two lines of the guard. *)
Definition signalled (c : classification) : outcome unit :=
  match c with
  | fails_InvalidArgument message => Thrown (invalid_argument message)
  | fails_CustomDomainError message => Thrown (MyCustomException message)
  | fails_Overflow message => Thrown (overflow_error message)
  | fails_AllocationFailure => Thrown bad_alloc
  | succeeds _ => Returned tt
  end.

Definition emitted (c : classification) : console :=
  match c with
  | succeeds line => [(cout, line)]
  | _ => []
  end.

End ExceptionHandling.

(* ================================================================== *)
(** * Program A: what [processData] reads of [cout] *)

(** [cout << value] writes an [int] in the numeric base the stream is set
    to.  The base is state of [cout] that outlives a call: [std::dec] unless
    a caller has set another ([cout << hex]).  Nothing in the program sets
    it, which is why the console alone is the state of [ExceptionHandling];
    here [processData] is embedded once more with the base made explicit.
    The rest of the formatting state (field width, fill, [showbase],
    [showpos], [uppercase], locale) is taken at its default. *)

Module NumericBase.

Import ExceptionHandling.

(** [std::ios_base::basefield] *)
Inductive basefield := dec | oct | hex.

Record streams := Streams {
  cout_base : basefield;
  console_of : console
}.

Definition F (A : Type) : Type := streams -> outcome A * streams.

#[global] Instance F_ret : MRet F := fun A a st => (Returned a, st).
#[global] Instance F_bind : MBind F := fun A B k m st =>
  match m st with
  | (Returned a, st1) => k a st1
  | (Thrown e, st1) => (Thrown e, st1)
  | (Terminated, st1) => (Terminated, st1)
  end.

Definition throw {A} (e : exn) : F A := fun st => (Thrown e, st).

(** [s << text << endl], no number in it. *)
Definition emit (s : stream) (text : string) : F unit := fun st =>
  (Returned tt, Streams (cout_base st) (console_of st ++ [(s, text)])).

Definition digit (d : Z) : Ascii.ascii :=
  match String.get (Z.to_nat d) "0123456789abcdef" with
  | Some c => c
  | None => "0"%char
  end.

(** The digits of [n] in [radix], most significant first; [fuel] bounds
    their number. *)
Fixpoint digits (fuel : nat) (radix n : Z) : string :=
  match fuel with
  | O => ""
  | S fuel' =>
      (if n <? radix then "" else digits fuel' radix (n / radix)) +:+
      String (digit (n mod radix)) ""
  end.

(** An [int] as [operator<<] writes it: signed in decimal; in octal and in
    hexadecimal the 32 bits of the [int] read as unsigned, which are at most
    11 and 8 digits. *)
Definition insert_int (base : basefield) (value : Z) : string :=
  match base with
  | dec => show_int value
  | oct => digits 11 8 (value mod 2 ^ 32)
  | hex => digits 8 16 (value mod 2 ^ 32)
  end.

(** [cout << text << value << endl] *)
Definition emit_int (text : string) (value : Z) : F unit := fun st =>
  (Returned tt,
   Streams (cout_base st)
           (console_of st ++
            [(cout, text +:+ insert_int (cout_base st) value)])).

(** As [ExceptionHandling.scoped], on the larger state. *)
Definition scoped {A} (ctor dtor : F unit) (body : F A) : F A := fun st =>
  match ctor st with
  | (Returned _, st1) =>
      match body st1 with
      | (Terminated, st2) => (Terminated, st2)
      | (r, st2) =>
          match dtor st2 with
          | (Returned _, st3) => (r, st3)
          | (_, st3) => (Terminated, st3)
          end
      end
  | (Thrown e, st1) => (Thrown e, st1)
  | (Terminated, st1) => (Terminated, st1)
  end.

(** [class ResourceGuard] *)
Definition ResourceGuard_ctor : F unit := emit cout "Resource acquired.".
Definition ResourceGuard_dtor : F unit :=
  emit cout "Resource released (simulating finally block).".

(** [void processData(int value)] *)
Definition processData (value : Z) : F unit :=
  scoped ResourceGuard_ctor ResourceGuard_dtor
    ((if value <? 0 then
        throw (invalid_argument "Negative value is not allowed.")
      else if value =? 0 then
        throw (MyCustomException "Zero is not permitted.")
      else if value >? 100 then
        throw (overflow_error "Value exceeds the allowable range.")
      else mret tt) ;;
     (if value =? 99 then throw bad_alloc else mret tt) ;;
     emit_int "Value is valid: " value).

(** What one call writes, started on an empty console with [cout] in
    [base]. *)
Definition appended (base : basefield) (value : Z) : console :=
  console_of (snd (processData value (Streams base []))).

End NumericBase.

(* ================================================================== *)
(** * Program B: preprocessor directives *)

Module PreprocessorDirectives.

(** ** Macros and the controlling expressions of [#if] *)

Inductive macro :=
| object_like (replacement : option Z)
    (* [#define MAX_HEALTH 100]; [None] for an empty replacement list,
       as in [#define DEBUG] *)
| function_like (expansion : string -> string).
    (* [#define GREETING(name) (...)], as the value the expansion denotes *)

Inductive pp_expr :=
| pp_number (n : Z)
| pp_identifier (name : string)
| pp_equal (lhs rhs : pp_expr).

(** Controlling expressions are evaluated in [intmax_t], 64 bits wide: a
    number keeps its low 64 bits, read in two's complement.  (A literal that
    does not fit is diagnosed; a translator that goes on keeps those bits.
    Signed and unsigned operands with the same bits compare equal.) *)
Definition intmax_wrap (z : Z) : Z := (z + 2 ^ 63) mod 2 ^ 64 - 2 ^ 63.

(** Value of a controlling expression.  An object-like macro name is
    replaced by its replacement list.  Every identifier left after that
    counts as the number 0, whatever the program declares under that name:
    a name that is no macro, and also the name of a function-like macro,
    which without an argument list is no invocation.  [None] when the
    expression left after replacement is not an integer expression. *)
Fixpoint pp_eval (defined : gmap string macro) (e : pp_expr) : option Z :=
  match e with
  | pp_number n => Some (intmax_wrap n)
  | pp_identifier name =>
      match defined !! name with
      | None => Some 0
      | Some (function_like _) => Some 0
      | Some (object_like (Some n)) => Some (intmax_wrap n)
      | Some (object_like None) => None
      end
  | pp_equal lhs rhs =>
      match pp_eval defined lhs, pp_eval defined rhs with
      | Some a, Some b => Some (if a =? b then 1 else 0)
      | _, _ => None
      end
  end.

(** ** Translation state *)

(** The macro table at the current point of the file, and the lines written
    to [std::cout] so far. *)
Record state := State {
  defined : gmap string macro;
  printed : list string
}.

(** [None]: the translation unit is ill-formed at this point. *)
Definition P (A : Type) : Type := state -> option (A * state).

#[global] Instance P_ret : MRet P := fun A a st => Some (a, st).
#[global] Instance P_bind : MBind P := fun A B k m st =>
  match m st with
  | Some (a, st1) => k a st1
  | None => None
  end.

(** [#define name ...] *)
Definition pp_define (name : string) (m : macro) : P unit := fun st =>
  Some (tt, State (<[name := m]> (defined st)) (printed st)).

(** [#undef name] *)
Definition pp_undef (name : string) : P unit := fun st =>
  Some (tt, State (delete name (defined st)) (printed st)).

(** [#ifdef name] group [#endif] *)
Definition pp_ifdef (name : string) (group : P unit) : P unit := fun st =>
  match defined st !! name with
  | Some _ => group st
  | None => Some (tt, st)
  end.

(** [#if] / [#elif] ... / [#else] / [#endif]: the conditions are evaluated in
    order until one is non-zero; only that group is kept, or the [#else]
    group when all are zero. *)
Fixpoint pp_if (groups : list (pp_expr * P unit)) (otherwise : P unit) : P unit :=
  fun st =>
    match groups with
    | [] => otherwise st
    | (cond, group) :: rest =>
        match pp_eval (defined st) cond with
        | None => None
        | Some c => if c =? 0 then pp_if rest otherwise st else group st
        end
    end.

(** An object-like macro used where the program needs an [int]. *)
Definition macro_int (name : string) : P Z := fun st =>
  match defined st !! name with
  | Some (object_like (Some n)) => Some (n, st)
  | _ => None
  end.

(** A function-like macro invoked on one argument. *)
Definition macro_call (name : string) (arg : string) : P string := fun st =>
  match defined st !! name with
  | Some (function_like expansion) => Some (expansion arg, st)
  | _ => None
  end.

(** [std::cout << text << std::endl] *)
Definition cout_line (text : string) : P unit := fun st =>
  Some (tt, State (defined st) (printed st ++ [text])).

(** ** The program *)

(** [#define GREETING(name) ("Hello, " + name + "! Welcome to the game.")],
    as the string the replacement denotes for an argument. *)
Definition GREETING (name : string) : string :=
  "Hello, " +:+ name +:+ "! Welcome to the game.".

Section Build.

(** The predefined macros [__FILE__], [__DATE__] and [__TIME__] are supplied
    by the build. *)
Variables (FILE DATE TIME : string).

(** [__LINE__] at its one use, line 72 of the file. *)
Definition LINE : Z := 72.

(** [int main()] *)
Definition main : P Z :=
  pp_define "MAX_HEALTH" (object_like (Some 100)) ;;
  pp_define "GREETING" (function_like GREETING) ;;
  let playerName := "Hero" in
  greeting ← macro_call "GREETING" playerName;
  cout_line greeting ;;
  let playerHealth := 90 in
  limit ← macro_int "MAX_HEALTH";
  (if playerHealth >? limit then
     cout_line "Health exceeds maximum limit!"
   else
     shown ← macro_int "MAX_HEALTH";
     cout_line ("Your current health is: " +:+ show_int playerHealth +:+
                " out of " +:+ show_int shown)) ;;
  pp_undef "MAX_HEALTH" ;;
  pp_define "MAX_HEALTH" (object_like (Some 150)) ;;
  let bossHealth := 120 in
  shown ← macro_int "MAX_HEALTH";
  cout_line ("Boss health: " +:+ show_int bossHealth +:+ " out of " +:+
             show_int shown) ;;
  pp_define "DEBUG" (object_like None) ;;
  pp_ifdef "DEBUG"
    (cout_line "[DEBUG] Debugging information enabled." ;;
     cout_line ("[DEBUG] Player name: " +:+ playerName) ;;
     cout_line ("[DEBUG] Player health: " +:+ show_int playerHealth) ;;
     cout_line ("[DEBUG] Boss health: " +:+ show_int bossHealth)) ;;
  cout_line ("File: " +:+ FILE) ;;
  cout_line ("Compiled on: " +:+ DATE +:+ " at " +:+ TIME) ;;
  cout_line ("Current line number: " +:+ show_int LINE) ;;
  let difficulty := 2 in
  pp_if
    [(pp_equal (pp_identifier "difficulty") (pp_number 1),
      cout_line "Easy mode activated.");
     (pp_equal (pp_identifier "difficulty") (pp_number 2),
      cout_line "Normal mode activated.")]
    (cout_line "Hard mode activated.") ;;
  mret 0.

End Build.

(** The translation unit starts with no macro of its own defined and nothing
    printed. *)
Definition initial : state := State ∅ [].

Definition run {A} (m : P A) : option (A * list string) :=
  match m initial with
  | Some (a, st) => Some (a, printed st)
  | None => None
  end.

(** The conditional block that closes [main] ([#if difficulty == 1] to
    [#endif]), on its own. *)
Definition difficulty_conditional : P unit :=
  pp_if
    [(pp_equal (pp_identifier "difficulty") (pp_number 1),
      cout_line "Easy mode activated.");
     (pp_equal (pp_identifier "difficulty") (pp_number 2),
      cout_line "Normal mode activated.")]
    (cout_line "Hard mode activated.").

(** The lines of a finished run; none when the program does not translate. *)
Definition lines {A} (r : option (A * list string)) : list string :=
  match r with
  | Some (_, out) => out
  | None => []
  end.

Definition occurs (line : string) (out : list string) : bool :=
  existsb (String.eqb line) out.

(** The macro table a program leaves behind. *)
Definition final_table {A} (m : P A) : option (gmap string macro) :=
  match m initial with
  | Some (_, st) => Some (defined st)
  | None => None
  end.

End PreprocessorDirectives.

(* ================================================================== *)
(** * Properties of Program A *)

Section ExceptionHandlingProperties.

Import ExceptionHandling.

(** Every run of [processData], from any console: how it leaves and what it
    appends. *)
Lemma processData_run (value : Z) (w : console) :
  processData value w =
    (signalled (five_way_classification value),
     w ++ [acquired] ++ emitted (five_way_classification value) ++ [released]).
Proof.
  unfold processData, five_way_classification, classification_rules.
  unfold scoped, ResourceGuard_ctor, ResourceGuard_dtor, emit, throw.
  unfold mbind, M_bind, bind, mret, M_ret, ret, acquired, released.
  cbn [find fst snd].
  destruct (value <? 0); [cbn; by rewrite <- !app_assoc|].
  destruct (value =? 0); [cbn; by rewrite <- !app_assoc|].
  destruct (value >? 100); [cbn; by rewrite <- !app_assoc|].
  destruct (value =? 99); cbn [signalled emitted]; by rewrite <- !app_assoc.
Qed.

(** The ranges the rules of [five_way_classification] cut out of [Z]. *)
Lemma five_way_classification_ranges (value : Z) :
  let c := five_way_classification value in
  value < 0 /\ c = fails_InvalidArgument "Negative value is not allowed."
  \/ value = 0 /\ c = fails_CustomDomainError "Zero is not permitted."
  \/ value > 100 /\ c = fails_Overflow "Value exceeds the allowable range."
  \/ value = 99 /\ c = fails_AllocationFailure
  \/ (1 <= value <= 100 /\ value <> 99) /\
     c = succeeds ("Value is valid: " +:+ show_int value).
Proof.
  unfold five_way_classification, classification_rules; cbn [find fst snd].
  destruct (Z.ltb_spec value 0); [by left|].
  destruct (Z.eqb_spec value 0); [by right; left|].
  destruct (Z.gtb_spec value 100); [right; right; left; split; [lia|done]|].
  destruct (Z.eqb_spec value 99); [by right; right; right; left|].
  right; right; right; right. split; [lia|done].
Qed.

Lemma emitted_without_guard_lines (value : Z) :
  occurrences acquired (emitted (five_way_classification value)) = 0%nat /\
  occurrences released (emitted (five_way_classification value)) = 0%nat.
Proof.
  unfold five_way_classification, classification_rules; cbn [find fst snd].
  destruct (value <? 0); [by split|].
  destruct (value =? 0); [by split|].
  destruct (value >? 100); [by split|].
  destruct (value =? 99); split; reflexivity.
Qed.

Lemma occurrences_app (ev : event) (w1 w2 : console) :
  occurrences ev (w1 ++ w2) = (occurrences ev w1 + occurrences ev w2)%nat.
Proof. unfold occurrences. by rewrite List.filter_app, List.length_app. Qed.

(** C1. For every integer [value], [processData] behaves as the five-way
    priority classification says, first match wins: below 0 it throws
    [invalid_argument] with "Negative value is not allowed."; at 0 it throws
    [MyCustomException] with "Zero is not permitted."; above 100 it throws
    [overflow_error] with "Value exceeds the allowable range."; at 99 it
    throws [bad_alloc]; on every other value (from 1 to 100, not 99) it
    returns and writes "Value is valid: " followed by the value. *)
Theorem processData_five_way (value : Z) (w : console) :
  let c := five_way_classification value in
  processData value w =
    (signalled c, w ++ [acquired] ++ emitted c ++ [released]) /\
  (value < 0 /\ c = fails_InvalidArgument "Negative value is not allowed."
   \/ value = 0 /\ c = fails_CustomDomainError "Zero is not permitted."
   \/ value > 100 /\ c = fails_Overflow "Value exceeds the allowable range."
   \/ value = 99 /\ c = fails_AllocationFailure
   \/ (1 <= value <= 100 /\ value <> 99) /\
      c = succeeds ("Value is valid: " +:+ show_int value)).
Proof.
  split; [apply processData_run | apply five_way_classification_ranges].
Qed.

(** C3. Every call of [processData], whatever the value and whatever way it
    leaves, first appends "Resource acquired." and last appends "Resource
    released (simulating finally block)."; neither line occurs in between, so
    each is written exactly once per call, and the call never ends the
    process before the release. *)
Theorem processData_guard_pair (value : Z) (w : console) :
  exists (r : outcome unit) (between : console),
    processData value w = (r, w ++ [acquired] ++ between ++ [released]) /\
    occurrences acquired between = 0%nat /\
    occurrences released between = 0%nat /\
    occurrences acquired (written value) = 1%nat /\
    occurrences released (written value) = 1%nat /\
    (r = Returned tt \/ exists e, r = Thrown e).
Proof.
  exists (signalled (five_way_classification value)),
         (emitted (five_way_classification value)).
  destruct (emitted_without_guard_lines value) as [Hacq Hrel].
  split; [apply processData_run|].
  unfold written, run. rewrite processData_run. cbn [snd].
  rewrite !occurrences_app, Hacq, Hrel.
  repeat split; try reflexivity.
  destruct (five_way_classification value); cbn; eauto.
Qed.

(** C7. [safeOperation] never lets an exception out: every call writes its
    one line and returns, a [try] around it with any handlers behaves like
    the bare call, and no [noexcept] function at all leaves by [Thrown]. *)
Theorem safeOperation_never_throws :
  (forall w : console,
     safeOperation w =
       (Returned tt,
        w ++ [(cout, "This operation is guaranteed not to throw an exception.")])) /\
  (forall (hs : list handler) (w : console),
     exec_try (Try safeOperation hs) w = safeOperation w) /\
  (forall (A : Type) (body : M A) (w : console),
     match fst (noexcept body w) with
     | Thrown _ => False
     | _ => True
     end).
Proof.
  split; [reflexivity|]. split; [reflexivity|].
  intros A body w. unfold noexcept.
  by destruct (body w) as [[a|e|] w1].
Qed.

(** ** [processData] and the numeric base of [cout] *)

(** Every run of [processData] with the base explicit: how it leaves, the
    base it leaves behind and what it appends. *)
Lemma processData_in_base (value : Z) (st : NumericBase.streams) :
  NumericBase.processData value st =
    (signalled (five_way_classification value),
     NumericBase.Streams
       (NumericBase.cout_base st)
       (NumericBase.console_of st ++
        [acquired] ++
        match five_way_classification value with
        | succeeds _ =>
            [(cout, "Value is valid: " +:+
                    NumericBase.insert_int (NumericBase.cout_base st) value)]
        | _ => []
        end ++
        [released])).
Proof.
  unfold NumericBase.processData, five_way_classification, classification_rules.
  unfold NumericBase.scoped, NumericBase.ResourceGuard_ctor,
    NumericBase.ResourceGuard_dtor, NumericBase.emit, NumericBase.emit_int,
    NumericBase.throw.
  unfold mbind, NumericBase.F_bind, mret, NumericBase.F_ret, acquired, released.
  cbn [List.find fst snd].
  destruct (value <? 0); [cbn; by rewrite <- !app_assoc|].
  destruct (value =? 0); [cbn; by rewrite <- !app_assoc|].
  destruct (value >? 100); [cbn; by rewrite <- !app_assoc|].
  destruct (value =? 99); cbn; by rewrite <- !app_assoc.
Qed.

(** With [cout] in decimal, the call is the [processData] of
    [ExceptionHandling]. *)
Lemma processData_in_decimal (value : Z) (w : console) :
  NumericBase.processData value (NumericBase.Streams NumericBase.dec w) =
    (fst (processData value w),
     NumericBase.Streams NumericBase.dec (snd (processData value w))).
Proof.
  rewrite processData_in_base, processData_run. cbn [fst snd].
  unfold five_way_classification, classification_rules; cbn [List.find fst snd].
  destruct (value <? 0); [done|]. destruct (value =? 0); [done|].
  destruct (value >? 100); [done|]. by destruct (value =? 99).
Qed.



(** ** The driver *)

(** No [try] block of [main] lets an exception out, whatever the console it
    starts on and whatever text [bad_alloc] carries. *)
Lemma main_blocks_return (bad_alloc_what : string) :
  Forall (fun t => forall w : console,
            exists w' : console, exec_try t w = (Returned tt, w'))
         (main_blocks bad_alloc_what).
Proof. repeat constructor; intros w; eexists; reflexivity. Qed.

(** C6, as stated, fails at the call [processData(999)]: it throws
    [overflow_error] with "Value exceeds the allowable range.", the handler
    that takes it is [catch (...)], and the one line it writes to [cerr],
    "Caught an unexpected exception.", neither names the kind nor carries that
    message. *)
Lemma compound_diagnostic_drops_kind_and_payload :
  raised try_compound =
    Some (overflow_error "Value exceeds the allowable range.") /\
  entered try_compound [] = Some catch_all /\
  diagnostics try_compound = ["Caught an unexpected exception."] /\
  contains "Value exceeds the allowable range."
           "Caught an unexpected exception." = false /\
  reports_kind_and_payload try_compound = false.
Proof. repeat split; reflexivity. Qed.

Section DriverProperties.

Variable bad_alloc_what : string.

#[local] Abbreviation main := (main bad_alloc_what).
#[local] Abbreviation main_blocks := (main_blocks bad_alloc_what).
#[local] Abbreviation try_negative := (try_negative bad_alloc_what).
#[local] Abbreviation try_zero := (try_zero bad_alloc_what).
#[local] Abbreviation try_overflow := (try_overflow bad_alloc_what).
#[local] Abbreviation try_alloc := (try_alloc bad_alloc_what).
#[local] Abbreviation try_valid := (try_valid bad_alloc_what).

(** C4. [main] calls [processData] seven times, on -1, 0, 101, 99, 10, 50
    and 999 in that order (50 and 999 in one [try] block), then calls
    [safeOperation] once: its output is the output of those calls in that
    order, with one [cerr] line after each of the five calls that fail
    (-1, 0, 101, 99, 999).  The whole run has seven "acquired" lines, seven
    "released" lines and five [cerr] lines. *)
Theorem main_calls_and_pairs :
  let out := snd (run main) in
  out =
    written (-1) ++
    [(cerr, "Caught a logic error (invalid_argument): Negative value is not allowed.")] ++
    written 0 ++
    [(cerr, "Caught a custom exception: Zero is not permitted.")] ++
    written 101 ++
    [(cerr, "Caught a runtime error (overflow_error): Value exceeds the allowable range.")] ++
    written 99 ++
    [(cerr, "Caught a memory allocation error (bad_alloc): " +:+ bad_alloc_what)] ++
    written 10 ++
    written 50 ++
    written 999 ++
    [(cerr, "Caught an unexpected exception.")] ++
    snd (run safeOperation) /\
  map (fun value => fst (run (processData value))) [-1; 0; 101; 99; 10; 50; 999] =
    [Thrown (invalid_argument "Negative value is not allowed.");
     Thrown (MyCustomException "Zero is not permitted.");
     Thrown (overflow_error "Value exceeds the allowable range.");
     Thrown bad_alloc;
     Returned tt;
     Returned tt;
     Thrown (overflow_error "Value exceeds the allowable range.")] /\
  map written [-1; 0; 101; 99; 10; 50; 999] =
    [[acquired; released]; [acquired; released]; [acquired; released];
     [acquired; released];
     [acquired; (cout, "Value is valid: 10"); released];
     [acquired; (cout, "Value is valid: 50"); released];
     [acquired; released]] /\
  occurrences acquired out = 7%nat /\
  occurrences released out = 7%nat /\
  length (on_stream cerr out) = 5%nat.
Proof. repeat split; reflexivity. Qed.

(** C5. In [main], every exception a [processData] call throws is caught by
    a handler of the [try] block the call stands in; no [try] block lets an
    exception out; [main] returns 0 from any console, so the process exits
    with status 0. *)
Theorem main_errors_caught_locally :
  map raised main_blocks =
    [Some (invalid_argument "Negative value is not allowed.");
     Some (MyCustomException "Zero is not permitted.");
     Some (overflow_error "Value exceeds the allowable range.");
     Some bad_alloc;
     None;
     Some (overflow_error "Value exceeds the allowable range.");
     None] /\
  map (fun t => entered t []) main_blocks =
    [Some (catch_type class_invalid_argument);
     Some (catch_type class_MyCustomException);
     Some (catch_type class_overflow_error);
     Some (catch_type class_bad_alloc);
     None;
     Some catch_all;
     None] /\
  Forall (fun t => forall w : console,
            exists w' : console, exec_try t w = (Returned tt, w'))
         main_blocks /\
  (forall w : console, fst (main w) = Returned 0) /\
  exit_status (fst (run main)) = Some 0.
Proof.
  split; [reflexivity|]. split; [reflexivity|].
  split; [apply main_blocks_return|].
  split; [intros w|]; reflexivity.
Qed.

(** C6, amended.  Each of the four failing calls that has a [try] block of
    its own (-1, 0, 101, 99) is reported by exactly one [cerr] line, written
    by a handler for the class of the error and ending in [e.what()]; the
    failing call 999 is reported by exactly the one line "Caught an unexpected
    exception." of [catch (...)].  After each, the [try] statement returns
    and [main] goes on. *)
Theorem main_diagnostics :
  map (fun t => (raised t, diagnostics t)) main_blocks =
    [(Some (invalid_argument "Negative value is not allowed."),
      ["Caught a logic error (invalid_argument): " +:+
       what bad_alloc_what (invalid_argument "Negative value is not allowed.")]);
     (Some (MyCustomException "Zero is not permitted."),
      ["Caught a custom exception: " +:+
       what bad_alloc_what (MyCustomException "Zero is not permitted.")]);
     (Some (overflow_error "Value exceeds the allowable range."),
      ["Caught a runtime error (overflow_error): " +:+
       what bad_alloc_what (overflow_error "Value exceeds the allowable range.")]);
     (Some bad_alloc,
      ["Caught a memory allocation error (bad_alloc): " +:+
       what bad_alloc_what bad_alloc]);
     (None, []);
     (Some (overflow_error "Value exceeds the allowable range."),
      ["Caught an unexpected exception."]);
     (None, [])] /\
  forallb reports_kind_and_payload
          [try_negative; try_zero; try_overflow; try_alloc] = true /\
  entered try_compound [] = Some catch_all /\
  Forall (fun t => forall w : console,
            exists w' : console, exec_try t w = (Returned tt, w'))
         main_blocks.
Proof.
  split; [reflexivity|]. split; [reflexivity|]. split; [reflexivity|].
  apply main_blocks_return.
Qed.

(** C10. The handler of the [try] around [processData(10)] and the handler
    after [safeOperation()] are never entered, and no line of any run starts
    with "Caught a general exception: " or is "This block will never be
    executed as safeOperation() is noexcept.". *)
Theorem main_dead_handlers :
  (forall w : console, entered try_valid w = None) /\
  (forall w : console, entered try_safe w = None) /\
  forallb (fun ev : event =>
             negb (String.prefix "Caught a general exception: " (snd ev)) &&
             negb (String.eqb
                     "This block will never be executed as safeOperation() is noexcept."
                     (snd ev)))
          (snd (run main)) = true.
Proof. repeat split; reflexivity. Qed.

End DriverProperties.

(** ** [processData] under the handlers of [main], for any value *)

Lemma on_stream_app (s : stream) (w1 w2 : console) :
  on_stream s (w1 ++ w2) = on_stream s w1 ++ on_stream s w2.
Proof. unfold on_stream. by rewrite List.filter_app, List.map_app. Qed.

Lemma written_run (value : Z) :
  written value =
    [acquired] ++ emitted (five_way_classification value) ++ [released].
Proof. unfold written, run. by rewrite processData_run. Qed.

(** [operator<<] prints different integers differently. *)
Lemma show_int_inj (a b : Z) : show_int a = show_int b -> a = b.
Proof.
  unfold show_int. intros Heq.
  assert (Hnorm : forall z : Z,
            NilZero.int_of_string (NilZero.string_of_int (Z.to_int z)) =
            Some (Z.to_int z)).
  { intros z. apply NilZero.isi; destruct z; cbn; try discriminate;
      intros [= Hnil]; by apply DecimalPos.Unsigned.to_uint_nonnil in Hnil. }
  apply DecimalZ.to_int_inj.
  apply (f_equal NilZero.int_of_string) in Heq.
  rewrite !Hnorm in Heq. by injection Heq.
Qed.

(** X1. [processData] writes to [cout] only: whatever the value and however
    the call leaves, [cerr] is as it was before the call, and [cout] has
    gained exactly the lines of the call. *)
Theorem processData_writes_cout_only (value : Z) (w : console) :
  on_stream cerr (snd (processData value w)) = on_stream cerr w /\
  on_stream cout (snd (processData value w)) =
    on_stream cout w ++ map snd (written value).
Proof.
  rewrite written_run, processData_run. cbn [snd].
  rewrite !on_stream_app.
  destruct (five_way_classification value); cbn; by rewrite ?app_nil_r.
Qed.

Section HandlerProperties.

Variable bad_alloc_what : string.

#[local] Abbreviation what := (what bad_alloc_what).
#[local] Abbreviation try_negative := (try_negative bad_alloc_what).
#[local] Abbreviation try_zero := (try_zero bad_alloc_what).
#[local] Abbreviation try_overflow := (try_overflow bad_alloc_what).
#[local] Abbreviation try_alloc := (try_alloc bad_alloc_what).
#[local] Abbreviation try_valid := (try_valid bad_alloc_what).

(** X2. Under [catch (const exception& e)] (the handler written around
    [processData(10)]) and under [catch (...)] (the handler of the compound
    block), a call of [processData] on any value never lets an exception out.
    When the call fails, the guard is released first and then exactly one
    line goes to [cerr]: "Caught a general exception: " with [e.what()] of
    the error as thrown, resp. "Caught an unexpected exception."; when it
    succeeds nothing goes to [cerr]. *)
Theorem blanket_handlers_guard_every_value (value : Z) (w : console) :
  let c := five_way_classification value in
  exec_try (Try (processData value) (try_handlers try_valid)) w =
    (Returned tt,
     w ++ [acquired] ++ emitted c ++ [released] ++
     match signalled c with
     | Thrown e => [(cerr, "Caught a general exception: " +:+ what e)]
     | _ => []
     end) /\
  exec_try (Try (processData value) (try_handlers try_compound)) w =
    (Returned tt,
     w ++ [acquired] ++ emitted c ++ [released] ++
     match signalled c with
     | Thrown _ => [(cerr, "Caught an unexpected exception.")]
     | _ => []
     end).
Proof.
  cbv zeta. unfold exec_try. cbn [try_body try_handlers].
  rewrite processData_run.
  destruct (five_way_classification value); cbn; unfold emit;
    rewrite <- ?app_assoc; by split.
Qed.

(** X3. Each of the four typed handlers of [main] catches the errors of its
    own band only.  Around [processData] on an arbitrary value, an exception
    leaves the [try] statement exactly when the value falls in one of the
    three other failing bands. *)
Theorem typed_handlers_catch_their_band (value : Z) (w : console) :
  let escapes (hs : list handler) : Prop :=
    match fst (exec_try (Try (processData value) hs) w) with
    | Thrown _ => True
    | _ => False
    end in
  (escapes (try_handlers try_negative) <->
     value = 0 \/ value > 100 \/ value = 99) /\
  (escapes (try_handlers try_zero) <->
     value < 0 \/ value > 100 \/ value = 99) /\
  (escapes (try_handlers try_overflow) <->
     value < 0 \/ value = 0 \/ value = 99) /\
  (escapes (try_handlers try_alloc) <->
     value < 0 \/ value = 0 \/ value > 100).
Proof.
  cbv zeta. unfold exec_try. cbn [try_body try_handlers].
  rewrite processData_run.
  destruct (five_way_classification_ranges value)
    as [[H ->]|[[H ->]|[[H ->]|[[H ->]|[H ->]]]]]; cbn;
    repeat split; intros; try tauto; try lia.
Qed.

End HandlerProperties.

(** X4. Two calls in sequence, as in the compound block: when the first
    call fails, the second is not started (its guard is not even acquired)
    and the error of the first leaves; when the first succeeds, the second
    runs and decides how the sequence leaves.  Under [catch (...)] the
    sequence always returns, and at most one line goes to [cerr]. *)
Theorem compound_stops_at_first_failure (a b : Z) (w : console) :
  (processData a ;; processData b) w =
    match five_way_classification a with
    | succeeds _ =>
        (signalled (five_way_classification b), w ++ written a ++ written b)
    | c => (signalled c, w ++ written a)
    end /\
  exists diag : console,
    exec_try (Try (processData a ;; processData b) (try_handlers try_compound)) w =
      (Returned tt, snd ((processData a ;; processData b) w) ++ diag) /\
    (diag = [] \/ diag = [(cerr, "Caught an unexpected exception.")]).
Proof.
  unfold exec_try. cbn [try_body try_handlers].
  unfold mbind, M_bind, bind. rewrite !written_run, !processData_run.
  destruct (five_way_classification a); cbn;
    try (split; [done | eexists; split; [reflexivity | by right]]).
  split; [by rewrite <- !app_assoc|].
  destruct (five_way_classification b); cbn;
    eexists; (split; [reflexivity | by right]) ||
             (split; [by rewrite app_nil_r | by left]).
Qed.

(** X5. A failing call leaves no trace of the value beyond its band: any two
    negative values, and any two values above 100, give the same exception,
    the same message and the same output. *)
Theorem failing_calls_hide_value (v1 v2 : Z) (w : console) :
  (v1 < 0 /\ v2 < 0) \/ (v1 > 100 /\ v2 > 100) ->
  processData v1 w = processData v2 w.
Proof.
  intros Hband. rewrite !processData_run.
  destruct (five_way_classification_ranges v1)
    as [[H1 ->]|[[H1 ->]|[[H1 ->]|[[H1 ->]|[H1 ->]]]]];
  destruct (five_way_classification_ranges v2)
    as [[H2 ->]|[[H2 ->]|[[H2 ->]|[[H2 ->]|[H2 ->]]]]];
    (reflexivity || lia).
Qed.

Lemma failing_calls_hide_value_witness :
  processData (-1) [] = processData (-7) [].
Proof. apply (failing_calls_hide_value (-1) (-7) []). left. lia. Defined.

(** X6. A successful call tells its value: two calls that both return and
    write the same lines were given the same value. *)
Theorem valid_output_determines_value (v1 v2 : Z) (w : console) :
  fst (processData v1 w) = Returned tt ->
  fst (processData v2 w) = Returned tt ->
  snd (processData v1 w) = snd (processData v2 w) ->
  v1 = v2.
Proof.
  rewrite !processData_run. cbn [fst snd].
  destruct (five_way_classification_ranges v1)
    as [[H1 ->]|[[H1 ->]|[[H1 ->]|[[H1 ->]|[H1 ->]]]]]; try discriminate;
  destruct (five_way_classification_ranges v2)
    as [[H2 ->]|[[H2 ->]|[[H2 ->]|[[H2 ->]|[H2 ->]]]]]; try discriminate.
  intros _ _ Hout. apply app_inv_head in Hout. cbn in Hout.
  injection Hout as Hshow. by apply show_int_inj.
Qed.

Lemma valid_output_determines_value_witness : 10 = 10.
Proof.
  apply (valid_output_determines_value 10 10 []); reflexivity.
Defined.

End ExceptionHandlingProperties.

(* ================================================================== *)
(** * Properties of Program B *)

Section PreprocessorDirectivesProperties.

Import PreprocessorDirectives.

(** ** The macro table *)

(** A use right after [#define] sees the value just defined. *)
Lemma macro_int_define (name : string) (n : Z) (st : state) :
  (pp_define name (object_like (Some n)) ;; macro_int name) st =
    Some (n, State (<[name := object_like (Some n)]> (defined st)) (printed st)).
Proof.
  unfold mbind, P_bind, pp_define, macro_int; cbn.
  by rewrite lookup_insert_eq.
Qed.

(** After [#undef] and a new [#define], the old value is gone: a use sees
    the new value whatever the macro was before. *)
Lemma macro_int_redefine (name : string) (n : Z) (st : state) :
  (pp_undef name ;; pp_define name (object_like (Some n)) ;; macro_int name) st =
    Some (n, State (<[name := object_like (Some n)]> (defined st)) (printed st)).
Proof.
  unfold mbind, P_bind, pp_undef, pp_define, macro_int; cbn.
  by rewrite lookup_insert_eq, insert_delete_eq.
Qed.

(** Numbers that fit [intmax_t] are their own value in [#if]. *)
Lemma intmax_wrap_id (n : Z) :
  - 2 ^ 63 <= n < 2 ^ 63 -> intmax_wrap n = n.
Proof.
  intros Hrange. unfold intmax_wrap.
  rewrite Z.mod_small by lia. lia.
Qed.

(** An identifier that is no macro counts as 0 in [#if], so comparing it
    with a non-zero number gives 0. *)
Lemma pp_eval_undefined_identifier
    (table : gmap string macro) (name : string) (n : Z) :
  table !! name = None ->
  intmax_wrap n <> 0 ->
  pp_eval table (pp_equal (pp_identifier name) (pp_number n)) = Some 0.
Proof.
  intros Hnone Hn. cbn [pp_eval]. rewrite Hnone.
  by destruct (Z.eqb_spec 0 (intmax_wrap n)) as [Heq|_]; [congruence|].
Qed.

Section BuildProperties.

Variables (FILE DATE TIME : string).

#[local] Abbreviation main := (main FILE DATE TIME).

(** The whole run of the program. *)
Lemma main_run :
  run main =
    Some (0,
          ["Hello, Hero! Welcome to the game.";
           "Your current health is: 90 out of 100";
           "Boss health: 120 out of 150";
           "[DEBUG] Debugging information enabled.";
           "[DEBUG] Player name: Hero";
           "[DEBUG] Player health: 90";
           "[DEBUG] Boss health: 120";
           "File: " +:+ FILE;
           "Compiled on: " +:+ DATE +:+ " at " +:+ TIME;
           "Current line number: 72";
           "Hard mode activated."]).
Proof. vm_compute. reflexivity. Qed.

(** C8. The greeting macro applied to "Hero" gives exactly "Hello, Hero!
    Welcome to the game.", the first line of the run; the first health test
    uses the value 100 that [MAX_HEALTH] has at that point and writes "Your
    current health is: 90 out of 100", not the exceeding branch; the boss
    line uses the redefined value 150 and reads "Boss health: 120 out of
    150". *)
Theorem main_greeting_and_health :
  GREETING "Hero" = "Hello, Hero! Welcome to the game." /\
  (exists rest : list string,
     run main =
       Some (0,
             "Hello, Hero! Welcome to the game." ::
             "Your current health is: 90 out of 100" ::
             "Boss health: 120 out of 150" :: rest)) /\
  occurs "Health exceeds maximum limit!" (lines (run main)) = false.
Proof.
  rewrite main_run. split; [reflexivity|]. split; [by eexists|reflexivity].
Qed.

(** C2, on the code.  [#if difficulty == 1] and [#elif difficulty == 2] test
    the identifier [difficulty], which is a variable of the program and no
    macro, so both conditions are 0 and the [#else] group is the one kept:
    the run ends with "Hard mode activated." and "Normal mode activated." is
    written nowhere. *)
Theorem main_difficulty_keeps_else_group :
  (exists table : gmap string macro,
     final_table main = Some table /\
     table !! "difficulty" = None /\
     pp_eval table (pp_equal (pp_identifier "difficulty") (pp_number 1)) = Some 0 /\
     pp_eval table (pp_equal (pp_identifier "difficulty") (pp_number 2)) = Some 0) /\
  last (lines (run main)) = Some "Hard mode activated." /\
  occurs "Hard mode activated." (lines (run main)) = true /\
  occurs "Normal mode activated." (lines (run main)) = false /\
  occurs "Easy mode activated." (lines (run main)) = false.
Proof.
  rewrite main_run. split; [|repeat split; reflexivity].
  eexists. split; [reflexivity|].
  assert (Hno : forall (name : string) (m : macro) (t : gmap string macro),
            name <> "difficulty" ->
            t !! "difficulty" = None ->
            <[name := m]> t !! "difficulty" = None).
  { intros name m t Hne Hnone. by rewrite lookup_insert_ne. }
  assert (Hnone :
    (<["DEBUG" := object_like None]>
       (<["MAX_HEALTH" := object_like (Some 150)]>
          (delete "MAX_HEALTH"
             (<["GREETING" := function_like GREETING]>
                (<["MAX_HEALTH" := object_like (Some 100)]> ∅))))
     : gmap string macro) !! "difficulty" = None).
  { apply Hno; [done|]. apply Hno; [done|].
    rewrite lookup_delete_ne by done.
    apply Hno; [done|]. apply Hno; [done|]. apply lookup_empty. }
  split; [exact Hnone|].
  split; apply pp_eval_undefined_identifier; (exact Hnone || by vm_compute).
Qed.

End BuildProperties.

(** ** The directives of [main], for any macro table *)

(** Nothing is lost when a string is put in front of a fixed ending. *)
Lemma string_app_inj_r (ending a b : string) :
  a +:+ ending = b +:+ ending -> a = b.
Proof.
  assert (Hlen : forall s t : string,
            String.length (s +:+ t) = (String.length s + String.length t)%nat).
  { induction s as [|c s IH]; intros t; simpl; [done | f_equal; apply IH]. }
  revert b. induction a as [|c a IH]; intros [|d b] Heq.
  - done.
  - apply (f_equal String.length) in Heq. rewrite !Hlen in Heq. simpl in Heq. lia.
  - apply (f_equal String.length) in Heq. rewrite !Hlen in Heq. simpl in Heq. lia.
  - simpl in Heq. injection Heq as -> Heq. f_equal. by apply IH.
Qed.

(** X7. While [difficulty] names no macro, the closing conditional keeps the
    [#else] group whatever else is defined and whatever value the program
    gives its variable [difficulty]: it prints "Hard mode activated." and
    nothing else, and leaves the macro table alone. *)
Theorem difficulty_conditional_without_macro (st : state) :
  defined st !! "difficulty" = None ->
  difficulty_conditional st =
    Some (tt, State (defined st) (printed st ++ ["Hard mode activated."])).
Proof.
  intros Hnone. unfold difficulty_conditional. cbn [pp_if pp_eval].
  by rewrite Hnone.
Qed.

Lemma difficulty_conditional_without_macro_witness :
  difficulty_conditional initial =
    Some (tt, State ∅ ["Hard mode activated."]).
Proof.
  apply (difficulty_conditional_without_macro initial). reflexivity.
Defined.

(** X8. When [difficulty] is an object-like macro for an integer that fits
    [intmax_t], the closing conditional prints exactly one line: "Easy mode
    activated." for 1, "Normal mode activated." for 2 and "Hard mode
    activated." for every other such integer. *)
Theorem difficulty_conditional_with_macro (st : state) (n : Z) :
  defined st !! "difficulty" = Some (object_like (Some n)) ->
  - 2 ^ 63 <= n < 2 ^ 63 ->
  difficulty_conditional st =
    Some (tt,
          State (defined st)
                (printed st ++
                 [if n =? 1 then "Easy mode activated."
                  else if n =? 2 then "Normal mode activated."
                  else "Hard mode activated."])).
Proof.
  intros Hmacro Hrange. unfold difficulty_conditional. cbn [pp_if pp_eval].
  rewrite Hmacro, (intmax_wrap_id n Hrange).
  change (intmax_wrap 1) with 1. change (intmax_wrap 2) with 2.
  destruct (Z.eqb_spec n 1) as [->|Hne1]; [done|]. cbn.
  by destruct (Z.eqb_spec n 2) as [->|Hne2].
Qed.

Lemma difficulty_conditional_with_macro_witness :
  difficulty_conditional
    (State {["difficulty" := object_like (Some 2)]} []) =
    Some (tt,
          State {["difficulty" := object_like (Some 2)]}
                ["Normal mode activated."]).
Proof.
  assert (Hrange : - 2 ^ 63 <= 2 < 2 ^ 63) by lia.
  exact (difficulty_conditional_with_macro
           (State {["difficulty" := object_like (Some 2)]} []) 2
           (lookup_singleton_eq "difficulty" (object_like (Some 2)))
           Hrange).
Defined.

(** X10. The greeting keeps the name apart: two names with the same
    greeting are the same name. *)
Theorem GREETING_inj (name1 name2 : string) :
  GREETING name1 = GREETING name2 -> name1 = name2.
Proof.
  unfold GREETING. simpl. intros Heq. injection Heq as Heq.
  change (name1 +:+ "! Welcome to the game." =
          name2 +:+ "! Welcome to the game.") in Heq.
  by apply string_app_inj_r in Heq.
Qed.

Lemma GREETING_inj_witness : "Hero" = "Hero".
Proof. apply (GREETING_inj "Hero" "Hero"). reflexivity. Defined.

(** X11. In every build the program translates, [main] returns 0 and
    prints eleven lines; only the "File: " and "Compiled on: " lines depend
    on the build, and the line counter printed is 72. *)
Theorem main_output_in_every_build (FILE DATE TIME : string) :
  run (main FILE DATE TIME) =
    Some (0,
          ["Hello, Hero! Welcome to the game.";
           "Your current health is: 90 out of 100";
           "Boss health: 120 out of 150";
           "[DEBUG] Debugging information enabled.";
           "[DEBUG] Player name: Hero";
           "[DEBUG] Player health: 90";
           "[DEBUG] Boss health: 120";
           "File: " +:+ FILE;
           "Compiled on: " +:+ DATE +:+ " at " +:+ TIME;
           "Current line number: 72";
           "Hard mode activated."]) /\
  length (lines (run (main FILE DATE TIME))) = 11%nat.
Proof. rewrite main_run. by split. Qed.

End PreprocessorDirectivesProperties.
